(** * MarqueeText: the measurement-and-animation controller of src/index.js

    A shallow embedding of the [MarqueeText] component.  JavaScript numbers
    are IEEE-754 binary64 values, modelled by Rocq's primitive floats, so
    that [null], [NaN], signed zeros and infinities behave as in the source.
    The component instance and the part of the host it talks to (pending
    timeouts, suspended measurements, the animation attached to
    [animatedValue], the console) form one record; every method is a state
    transformer on it, and the host's events drive it through [step]. *)

From Stdlib Require Import List Bool String PArith ZArith Lia.
From Stdlib Require Import Floats.
Import ListNotations.

Set Implicit Arguments.

(** ** JavaScript values used by the component *)

Definition number := float.

(** What the field [this.distance] can hold: [null], a number, or the
    [Error] object that [calculateDistance] returns from its [catch]. *)
Inductive value :=
| VNull
| VNum (n : number)
| VError (reason : string).

(** ToNumber: [null] is [+0]; an Error object converts through its string
    form, which is never numeric, to [NaN]. *)
Definition ToNumber (v : value) : number :=
  match v with
  | VNull => 0%float
  | VNum n => n
  | VError _ => nan
  end.

(** [Math.max(a, b)]: [NaN] if either is [NaN]; [+0] is larger than [-0]. *)
Definition Math_max (a b : number) : number :=
  if is_nan a || is_nan b then nan
  else if (a <? b)%float then b
  else if (b <? a)%float then a
  else if get_sign a then b else a.

(** A settled promise. *)
Inductive Settled (A : Type) :=
| Fulfilled (a : A)
| Rejected (reason : string).
Arguments Rejected {A} reason.

(** [Promise.all] of two promises: the pair of results, or the first
    rejection. *)
Definition Promise_all2 {A B : Type} (p : Settled A) (q : Settled B)
  : Settled (A * B) :=
  match p, q with
  | Fulfilled a, Fulfilled b => Fulfilled (a, b)
  | Rejected e, _ => Rejected e
  | Fulfilled _, Rejected e => Rejected e
  end.

Inductive LogEntry :=
| console_log_Width (w : number)
| console_warn (error : string).

Section Marquee.

(** The application state that [onMarqueeComplete] may act on. *)
Context {World : Type}.

(** ** Props *)

(** The configurable props ([style] is presentation only and left out). *)
Record Config := {
  speed : number;
  loop : bool;
  marqueeOnStart : bool;
  marqueeDelay : number;
  marqueeResetDelay : number;
  onMarqueeComplete : World -> World;
  useNativeDriver : bool
}.

Record Props := {
  config :> Config;
  children : string
}.

(** [static defaultProps]. *)
Definition defaultProps : Config := {|
  speed := 100%float;
  loop := false;
  marqueeOnStart := false;
  marqueeDelay := 0%float;
  marqueeResetDelay := 0%float;
  onMarqueeComplete := fun w => w;
  useNativeDriver := true
|}.

(** The attributes an element is created with: [None] is an omitted
    (undefined) prop. *)
Record Attributes := {
  given_speed : option number;
  given_loop : option bool;
  given_marqueeOnStart : option bool;
  given_marqueeDelay : option number;
  given_marqueeResetDelay : option number;
  given_onMarqueeComplete : option (World -> World);
  given_useNativeDriver : option bool;
  given_children : string
}.

Definition or_default {A : Type} (given : option A) (dflt : A) : A :=
  match given with
  | Some a => a
  | None => dflt
  end.

(** React fills every prop that is undefined from [defaultProps]. *)
Definition resolveDefaultProps (a : Attributes) : Props := {|
  config := {|
    speed := or_default (given_speed a) (speed defaultProps);
    loop := or_default (given_loop a) (loop defaultProps);
    marqueeOnStart :=
      or_default (given_marqueeOnStart a) (marqueeOnStart defaultProps);
    marqueeDelay :=
      or_default (given_marqueeDelay a) (marqueeDelay defaultProps);
    marqueeResetDelay :=
      or_default (given_marqueeResetDelay a) (marqueeResetDelay defaultProps);
    onMarqueeComplete :=
      or_default (given_onMarqueeComplete a) (onMarqueeComplete defaultProps);
    useNativeDriver :=
      or_default (given_useNativeDriver a) (useNativeDriver defaultProps)
  |};
  children := given_children a
|}.

(** ** Closures handed to the host *)

(** The [callback] closure built by [start]: it captures the props that
    [start] destructured when it was called. *)
Record StartCallback := {
  cb_speed : number;
  cb_loop : bool;
  cb_onMarqueeComplete : World -> World;
  cb_useNativeDriver : bool
}.

(** A timeout pending in the host: its handle, callback and delay (ms). *)
Record Timeout := {
  handle : positive;
  fn : StartCallback;
  time : number
}.

(** An [Animated.timing] animation attached to [animatedValue], with what
    its completion callback captured. *)
Record Animation := {
  toValue : number;
  duration : number;
  an_useNativeDriver : bool;
  an_loop : bool;
  an_onMarqueeComplete : World -> World
}.

(** ** The component instance and its host *)

Record Marquee := {
  props : Props;
  animating : bool;            (* this.state.animating *)
  distance : value;            (* this.distance *)
  contentFits : bool;          (* this.contentFits *)
  animatedValue : number;      (* current value of this.animatedValue *)
  timer : option positive;     (* this.timer; None is undefined or null *)
  timeouts : list Timeout;     (* host: timeouts not yet fired or cleared *)
  next_handle : positive;      (* host: next timeout handle *)
  measuring : nat;             (* calculateMetrics calls suspended at await *)
  running : option Animation;  (* host: animation driving animatedValue *)
  console : list LogEntry;     (* host: console output, oldest first *)
  world : World
}.

Definition with_props (p : Props) (s : Marquee) : Marquee :=
  {| props := p; animating := animating s; distance := distance s;
     contentFits := contentFits s; animatedValue := animatedValue s;
     timer := timer s; timeouts := timeouts s; next_handle := next_handle s;
     measuring := measuring s; running := running s; console := console s;
     world := world s |}.

Definition with_animating (b : bool) (s : Marquee) : Marquee :=
  {| props := props s; animating := b; distance := distance s;
     contentFits := contentFits s; animatedValue := animatedValue s;
     timer := timer s; timeouts := timeouts s; next_handle := next_handle s;
     measuring := measuring s; running := running s; console := console s;
     world := world s |}.

Definition with_distance (d : value) (s : Marquee) : Marquee :=
  {| props := props s; animating := animating s; distance := d;
     contentFits := contentFits s; animatedValue := animatedValue s;
     timer := timer s; timeouts := timeouts s; next_handle := next_handle s;
     measuring := measuring s; running := running s; console := console s;
     world := world s |}.

Definition with_contentFits (b : bool) (s : Marquee) : Marquee :=
  {| props := props s; animating := animating s; distance := distance s;
     contentFits := b; animatedValue := animatedValue s;
     timer := timer s; timeouts := timeouts s; next_handle := next_handle s;
     measuring := measuring s; running := running s; console := console s;
     world := world s |}.

Definition with_animatedValue (v : number) (s : Marquee) : Marquee :=
  {| props := props s; animating := animating s; distance := distance s;
     contentFits := contentFits s; animatedValue := v;
     timer := timer s; timeouts := timeouts s; next_handle := next_handle s;
     measuring := measuring s; running := running s; console := console s;
     world := world s |}.

Definition with_timer (t : option positive) (s : Marquee) : Marquee :=
  {| props := props s; animating := animating s; distance := distance s;
     contentFits := contentFits s; animatedValue := animatedValue s;
     timer := t; timeouts := timeouts s; next_handle := next_handle s;
     measuring := measuring s; running := running s; console := console s;
     world := world s |}.

Definition with_timeouts (l : list Timeout) (s : Marquee) : Marquee :=
  {| props := props s; animating := animating s; distance := distance s;
     contentFits := contentFits s; animatedValue := animatedValue s;
     timer := timer s; timeouts := l; next_handle := next_handle s;
     measuring := measuring s; running := running s; console := console s;
     world := world s |}.

Definition with_next_handle (h : positive) (s : Marquee) : Marquee :=
  {| props := props s; animating := animating s; distance := distance s;
     contentFits := contentFits s; animatedValue := animatedValue s;
     timer := timer s; timeouts := timeouts s; next_handle := h;
     measuring := measuring s; running := running s; console := console s;
     world := world s |}.

Definition with_measuring (n : nat) (s : Marquee) : Marquee :=
  {| props := props s; animating := animating s; distance := distance s;
     contentFits := contentFits s; animatedValue := animatedValue s;
     timer := timer s; timeouts := timeouts s; next_handle := next_handle s;
     measuring := n; running := running s; console := console s;
     world := world s |}.

Definition with_running (a : option Animation) (s : Marquee) : Marquee :=
  {| props := props s; animating := animating s; distance := distance s;
     contentFits := contentFits s; animatedValue := animatedValue s;
     timer := timer s; timeouts := timeouts s; next_handle := next_handle s;
     measuring := measuring s; running := a; console := console s;
     world := world s |}.

Definition with_console (l : list LogEntry) (s : Marquee) : Marquee :=
  {| props := props s; animating := animating s; distance := distance s;
     contentFits := contentFits s; animatedValue := animatedValue s;
     timer := timer s; timeouts := timeouts s; next_handle := next_handle s;
     measuring := measuring s; running := running s; console := l;
     world := world s |}.

Definition with_world (w : World) (s : Marquee) : Marquee :=
  {| props := props s; animating := animating s; distance := distance s;
     contentFits := contentFits s; animatedValue := animatedValue s;
     timer := timer s; timeouts := timeouts s; next_handle := next_handle s;
     measuring := measuring s; running := running s; console := console s;
     world := w |}.

(** ** Host primitives *)

(** The global [clearTimeout(id)]: forgets the timeout with that handle;
    nothing happens when it has already fired or been cleared. *)
Definition host_clearTimeout (id : positive) (s : Marquee) : Marquee :=
  with_timeouts
    (filter (fun t => negb (Pos.eqb (handle t) id)) (timeouts s)) s.

(** The global [setTimeout(fn, time)]: registers the callback under a fresh
    handle and returns the handle.  Handles are positive, hence truthy. *)
Definition host_setTimeout (f : StartCallback) (ms : number) (s : Marquee)
  : positive * Marquee :=
  let id := next_handle s in
  (id,
   with_next_handle (Pos.succ id)
     (with_timeouts
        (timeouts s ++ [{| handle := id; fn := f; time := ms |}]) s)).

(** [this.animatedValue.setValue(v)]: stops the animation attached to the
    value (its callback is called with [finished = false], on which the
    component's completion callback does nothing) and sets the value. *)
Definition setValue (v : number) (s : Marquee) : Marquee :=
  with_animatedValue v (with_running None s).

(** [Animated.timing(this.animatedValue, cfg).start(cb)]: the animation
    replaces whichever was attached to the value. *)
Definition Animated_timing_start (a : Animation) (s : Marquee) : Marquee :=
  with_running (Some a) s.

(** [this.setState({ animating })], applied at once: the component calls it
    from timer and animation callbacks, outside React's batching. *)
Definition setState (b : bool) (s : Marquee) : Marquee :=
  with_animating b s.

(** [this.setState({ animating }, callback)]: React calls [callback] once
    the state is committed.  [commit] is what React does in between:
    nothing for a call from a timer or animation callback, the installation
    of the next props for a call from [componentWillReceiveProps]. *)
Definition setState_then (b : bool) (commit callback : Marquee -> Marquee)
  (s : Marquee) : Marquee :=
  callback (commit (setState b s)).

(** ** Methods of the component, callees before callers *)

(** [invalidateMetrics()]. *)
Definition invalidateMetrics (s : Marquee) : Marquee :=
  with_contentFits false (with_distance VNull s).

(** [clearTimeout()]. *)
Definition clearTimeout (s : Marquee) : Marquee :=
  match timer s with
  | Some id => with_timer None (host_clearTimeout id s)
  | None => s
  end.

(** [setTimeout(fn, time = 0)]: [None] is an omitted [time]. *)
Definition setTimeout (f : StartCallback) (ms : option number) (s : Marquee)
  : Marquee :=
  let ms := or_default ms 0%float in
  let s := clearTimeout s in
  let (id, s) := host_setTimeout f ms s in
  with_timer (Some id) s.

(** [shouldAnimate(distance)]: [distance > 0]. *)
Definition shouldAnimate (d : value) : bool :=
  (0 <? ToNumber d)%float.

(** [calculateDistance()], from the two settled [measureWidth] promises. *)
Definition calculateDistance (container text : Settled number)
  : Settled value :=
  match Promise_all2 container text with
  | Fulfilled (containerWidth, textWidth) =>
      Fulfilled (VNum (containerWidth - textWidth)%float)
  | Rejected error => Fulfilled (VError error)
  end.

(** [calculateMetrics()] up to its [await]: [calculateDistance] has issued
    the two [UIManager.measure] requests and the call is suspended. *)
Definition calculateMetrics (s : Marquee) : Marquee :=
  with_measuring (S (measuring s)) s.

(** [calculateMetrics()] after its [await], once [calculateDistance] has
    settled with [r]. *)
Definition calculateMetrics_resume (r : Settled value) (s : Marquee)
  : Marquee :=
  match r with
  | Fulfilled d =>
      let s := with_distance d s in
      with_contentFits (negb (shouldAnimate (distance s))) s
  | Rejected error =>
      with_console (console s ++ [console_warn error]) s
  end.

(** The [callback] closure of [start].  [calculateMetrics()] is called
    without [await], so the fields read after it are those of the state
    before the measurement settles. *)
Definition callback (k : StartCallback) (s : Marquee) : Marquee :=
  let s := calculateMetrics s in
  if negb (contentFits s) then
    let s := setState true s in
    Animated_timing_start
      {| toValue := (- ToNumber (distance s))%float;
         duration := (ToNumber (distance s) / cb_speed k * 1000)%float;
         an_useNativeDriver := cb_useNativeDriver k;
         an_loop := cb_loop k;
         an_onMarqueeComplete := cb_onMarqueeComplete k |} s
  else s.

(** What [start] destructures from the props and its [callback] captures:
    [const { speed, loop, onMarqueeComplete, useNativeDriver } = this.props]. *)
Definition closure_of (p : Props) : StartCallback :=
  {| cb_speed := speed p;
     cb_loop := loop p;
     cb_onMarqueeComplete := onMarqueeComplete p;
     cb_useNativeDriver := useNativeDriver p |}.

(** [start(timeDelay)]. *)
Definition start (timeDelay : option number) (s : Marquee) : Marquee :=
  let k := closure_of (props s) in
  setTimeout k timeDelay s.

(** [startAnimation(timeDelay)]. *)
Definition startAnimation (timeDelay : option number) (s : Marquee)
  : Marquee :=
  if animating s then s else start timeDelay s.

(** [stop()]. *)
Definition stop (s : Marquee) : Marquee :=
  setState false (setValue 0%float s).

(** [stopAnimation()]. *)
Definition stopAnimation (s : Marquee) : Marquee := stop s.

(** [resetAnimation()], with what React does before the [setState]
    callback runs. *)
Definition resetAnimation_in (commit : Marquee -> Marquee) (s : Marquee)
  : Marquee :=
  let delay := Math_max 100%float (marqueeResetDelay (props s)) in
  let s := setValue 0%float s in
  setState_then false commit (startAnimation (Some delay)) s.

(** [resetAnimation()] called outside a render. *)
Definition resetAnimation (s : Marquee) : Marquee :=
  resetAnimation_in (fun s => s) s.

(** The completion callback given to [Animated.timing(...).start]. *)
Definition onAnimationEnd (finished : bool) (a : Animation) (s : Marquee)
  : Marquee :=
  if finished then
    if an_loop a then resetAnimation s
    else
      let s := stop s in
      with_world (an_onMarqueeComplete a (world s)) s
  else s.

(** [constructor(props)]; the host starts with no timeout, no measurement
    and no animation. *)
Definition construct (p : Props) (w : World) : Marquee :=
  invalidateMetrics
    {| props := p; animating := false; distance := VNull;
       contentFits := false; animatedValue := 0%float; timer := None;
       timeouts := []; next_handle := 1%positive; measuring := 0;
       running := None; console := []; world := w |}.

(** [componentDidMount()]. *)
Definition componentDidMount (s : Marquee) : Marquee :=
  if marqueeOnStart (props s)
  then startAnimation (Some (marqueeDelay (props s))) s
  else s.

(** [componentWillReceiveProps(nextProps)].  React installs [nextProps]
    once the method has returned, before it calls the [setState] callback
    of [resetAnimation]: the reset delay is read from the old props, the
    closure of [start] from the new ones. *)
Definition componentWillReceiveProps (nextProps : Props) (s : Marquee)
  : Marquee :=
  if String.eqb (children (props s)) (children nextProps)
  then with_props nextProps s
  else resetAnimation_in (with_props nextProps) (invalidateMetrics s).

(** [componentWillUnmount()]. *)
Definition componentWillUnmount (s : Marquee) : Marquee :=
  let s := if animating s then stopAnimation s else s in
  clearTimeout s.

(** ** Events *)

Inductive Event :=
| E_componentDidMount
| E_componentWillReceiveProps (nextProps : Props)
| E_componentWillUnmount
| E_startAnimation (timeDelay : option number)
| E_stopAnimation
| E_resetAnimation
| E_setTimeout (f : StartCallback) (ms : option number)
| E_clearTimeout
| E_onContentSizeChange
| E_timeout (id : positive)
| E_measured (container text : Settled number)
| E_animationFinished.

(** The host fires the timeout [id]: it leaves the pending set and its
    callback runs.  [this.timer] keeps the handle. *)
Definition fire (id : positive) (s : Marquee) : Marquee :=
  match find (fun t => Pos.eqb (handle t) id) (timeouts s) with
  | Some t => callback (fn t) (host_clearTimeout id s)
  | None => s
  end.

(** The [measureWidth] callbacks log the widths they receive. *)
Definition width_log (p : Settled number) : list LogEntry :=
  match p with
  | Fulfilled w => [console_log_Width w]
  | Rejected _ => []
  end.

(** Both [measureWidth] promises of the oldest suspended
    [calculateMetrics] call settle, and the call resumes. *)
Definition measured (container text : Settled number) (s : Marquee)
  : Marquee :=
  match measuring s with
  | O => s
  | S n =>
      let s := with_measuring n s in
      let s :=
        with_console (console s ++ width_log container ++ width_log text) s in
      calculateMetrics_resume (calculateDistance container text) s
  end.

(** The running animation reaches [toValue] and reports
    [finished = true]. *)
Definition animationFinished (s : Marquee) : Marquee :=
  match running s with
  | Some a =>
      onAnimationEnd true a
        (with_animatedValue (toValue a) (with_running None s))
  | None => s
  end.

Definition step (e : Event) (s : Marquee) : Marquee :=
  match e with
  | E_componentDidMount => componentDidMount s
  | E_componentWillReceiveProps p => componentWillReceiveProps p s
  | E_componentWillUnmount => componentWillUnmount s
  | E_startAnimation d => startAnimation d s
  | E_stopAnimation => stopAnimation s
  | E_resetAnimation => resetAnimation s
  | E_setTimeout f ms => setTimeout f ms s
  | E_clearTimeout => clearTimeout s
  | E_onContentSizeChange => calculateMetrics s
  | E_timeout id => fire id s
  | E_measured c t => measured c t s
  | E_animationFinished => animationFinished s
  end.

(** Runs a trace of events, oldest first. *)
Definition run (es : list Event) (s : Marquee) : Marquee :=
  fold_left (fun s e => step e s) es s.

(** ** Predicates on machine states used by the properties *)

(** At most one timeout is pending, and [this.timer] holds its handle. *)
Definition pending_ok (s : Marquee) : Prop :=
  match timeouts s with
  | [] => True
  | [t] => timer s = Some (handle t)
  | _ :: _ :: _ => False
  end.

(** [state.animating] is set exactly while an animation drives the value. *)
Definition animating_ok (s : Marquee) : Prop :=
  animating s = true <-> running s <> None.

Definition Inv (s : Marquee) : Prop := pending_ok s /\ animating_ok s.

(** Events that install new props. *)
Definition receives_props (e : Event) : bool :=
  match e with
  | E_componentWillReceiveProps _ => true
  | _ => false
  end.

(** Attributes with every optional prop omitted. *)
Definition omitted (text : string) : Attributes := {|
  given_speed := None;
  given_loop := None;
  given_marqueeOnStart := None;
  given_marqueeDelay := None;
  given_marqueeResetDelay := None;
  given_onMarqueeComplete := None;
  given_useNativeDriver := None;
  given_children := text
|}.

(** One full cycle: the content size changes, the measurement settles with
    the two widths, [startAnimation] is called, and its timeout fires. *)
Definition measure_then_start (containerWidth textWidth : number)
  (timeDelay : option number) (s : Marquee) : Marquee :=
  let s := run [E_onContentSizeChange;
                E_measured (Fulfilled containerWidth) (Fulfilled textWidth);
                E_startAnimation timeDelay] s in
  match timer s with
  | Some id => fire id s
  | None => s
  end.


(** The metrics are either invalidated or those of one measurement. *)
Definition metrics_ok (s : Marquee) : Prop :=
  (distance s = VNull /\ contentFits s = false) \/
  (distance s <> VNull /\
   contentFits s = negb (shouldAnimate (distance s))).

End Marquee.

(** Console entries written by [console.warn]. *)
Definition is_warn (e : LogEntry) : bool :=
  match e with
  | console_warn _ => true
  | console_log_Width _ => false
  end.

(** ** Invariants of reachable states *)

Unset Implicit Arguments.

Section Invariants.

Context {World : Type}.

Lemma clearTimeout_timeouts (s : @Marquee World) :
  pending_ok s -> timeouts (clearTimeout s) = [].
Proof.
  unfold pending_ok, clearTimeout.
  destruct (timer s) as [id|] eqn:Ht;
    destruct (timeouts s) as [|t [|t' l]] eqn:Hl; simpl; intros H;
    try rewrite Hl; simpl; try easy.
  injection H as ->. now rewrite Pos.eqb_refl.
Qed.

Lemma clearTimeout_pending_ok (s : @Marquee World) :
  pending_ok s -> pending_ok (clearTimeout s).
Proof.
  intros H. unfold pending_ok. now rewrite clearTimeout_timeouts.
Qed.

Lemma clearTimeout_frame (s : @Marquee World) :
  props (clearTimeout s) = props s /\
  animating (clearTimeout s) = animating s /\
  distance (clearTimeout s) = distance s /\
  contentFits (clearTimeout s) = contentFits s /\
  animatedValue (clearTimeout s) = animatedValue s /\
  next_handle (clearTimeout s) = next_handle s /\
  measuring (clearTimeout s) = measuring s /\
  running (clearTimeout s) = running s /\
  console (clearTimeout s) = console s /\
  world (clearTimeout s) = world s.
Proof.
  unfold clearTimeout. destruct (timer s); simpl; repeat split.
Qed.

Lemma setTimeout_timeouts (f : @StartCallback World) (ms : option number)
  (s : @Marquee World) :
  pending_ok s ->
  timeouts (setTimeout f ms s) =
    [{| handle := next_handle s; fn := f; time := or_default ms 0%float |}]
  /\ timer (setTimeout f ms s) = Some (next_handle s).
Proof.
  intros H. unfold setTimeout, host_setTimeout. simpl.
  rewrite (clearTimeout_timeouts s H).
  destruct (clearTimeout_frame s) as (_ & _ & _ & _ & _ & -> & _).
  now split.
Qed.

Lemma setTimeout_frame (f : @StartCallback World) (ms : option number)
  (s : @Marquee World) :
  props (setTimeout f ms s) = props s /\
  animating (setTimeout f ms s) = animating s /\
  distance (setTimeout f ms s) = distance s /\
  contentFits (setTimeout f ms s) = contentFits s /\
  animatedValue (setTimeout f ms s) = animatedValue s /\
  measuring (setTimeout f ms s) = measuring s /\
  running (setTimeout f ms s) = running s /\
  console (setTimeout f ms s) = console s /\
  world (setTimeout f ms s) = world s.
Proof.
  unfold setTimeout, host_setTimeout. simpl.
  destruct (clearTimeout_frame s)
    as (-> & -> & -> & -> & -> & _ & -> & -> & -> & ->).
  repeat split.
Qed.

Lemma setTimeout_Inv (f : @StartCallback World) (ms : option number) (s : @Marquee World) :
  Inv s -> Inv (setTimeout f ms s).
Proof.
  intros [Hp Ha]. split.
  - unfold pending_ok.
    destruct (setTimeout_timeouts f ms s Hp) as [-> ->]. reflexivity.
  - unfold animating_ok.
    destruct (setTimeout_frame f ms s) as (_ & -> & _ & _ & _ & _ & -> & _).
    exact Ha.
Qed.

Lemma clearTimeout_Inv (s : @Marquee World) : Inv s -> Inv (clearTimeout s).
Proof.
  intros [Hp Ha]. split.
  - now apply clearTimeout_pending_ok.
  - unfold animating_ok.
    destruct (clearTimeout_frame s) as (_ & -> & _ & _ & _ & _ & _ & -> & _).
    exact Ha.
Qed.

Lemma startAnimation_Inv (d : option number) (s : @Marquee World) :
  Inv s -> Inv (startAnimation d s).
Proof.
  intros H. unfold startAnimation, start.
  destruct (animating s); [exact H | now apply setTimeout_Inv].
Qed.

Lemma stop_Inv (s : @Marquee World) : Inv s -> Inv (stop s).
Proof.
  intros [Hp _]. split; [exact Hp|].
  unfold animating_ok; simpl. split; [discriminate | congruence].
Qed.

Lemma with_props_Inv (p : @Props World) (s : @Marquee World) :
  Inv s -> Inv (with_props p s).
Proof. destruct s. exact (fun H => H). Qed.

Lemma resetAnimation_Inv (s : @Marquee World) : Inv s -> Inv (resetAnimation s).
Proof.
  intros H. unfold resetAnimation, resetAnimation_in, setState_then.
  apply startAnimation_Inv. exact (stop_Inv s H).
Qed.

Lemma resetAnimation_in_props_Inv (p : @Props World) (s : @Marquee World) :
  Inv s -> Inv (resetAnimation_in (with_props p) s).
Proof.
  intros H. unfold resetAnimation_in, setState_then.
  apply startAnimation_Inv, with_props_Inv. exact (stop_Inv s H).
Qed.

Lemma callback_Inv (k : @StartCallback World) (s : @Marquee World) :
  Inv s -> Inv (callback k s).
Proof.
  intros [Hp Ha]. unfold callback. simpl.
  destruct (contentFits s); simpl; split; try assumption.
  unfold animating_ok; simpl. split; [discriminate | reflexivity].
Qed.

Lemma host_clearTimeout_timeouts (id : positive) (s : @Marquee World) (t : @Timeout World) :
  pending_ok s ->
  find (fun t => Pos.eqb (handle t) id) (timeouts s) = Some t ->
  timeouts s = [t] /\ handle t = id /\ timeouts (host_clearTimeout id s) = [].
Proof.
  unfold pending_ok, host_clearTimeout. simpl.
  destruct (timeouts s) as [|t0 [|t1 l]]; simpl; try easy.
  intros _. destruct (Pos.eqb (handle t0) id) eqn:E; [|discriminate].
  intros [= ->]. apply Pos.eqb_eq in E. now repeat split.
Qed.

Lemma fire_Inv (id : positive) (s : @Marquee World) : Inv s -> Inv (fire id s).
Proof.
  intros H. unfold fire.
  destruct (find _ (timeouts s)) as [t|] eqn:F; [|exact H].
  apply callback_Inv. destruct H as [Hp Ha].
  destruct (host_clearTimeout_timeouts id s t Hp F) as (_ & _ & E).
  split; [unfold pending_ok; now rewrite E | exact Ha].
Qed.

Lemma measured_Inv (c t : Settled number) (s : @Marquee World) :
  Inv s -> Inv (measured c t s).
Proof.
  intros H. unfold measured.
  destruct (measuring s); [exact H|].
  destruct (calculateDistance c t); exact H.
Qed.

Lemma animationFinished_Inv (s : @Marquee World) :
  Inv s -> Inv (animationFinished s).
Proof.
  intros H. unfold animationFinished.
  destruct (running s) as [a|] eqn:R; [|exact H].
  assert (H' : Inv (stop s)) by exact (stop_Inv s H).
  unfold onAnimationEnd. destruct (an_loop a).
  - unfold resetAnimation, resetAnimation_in, setState_then.
    apply startAnimation_Inv. exact H'.
  - exact H'.
Qed.

Lemma step_Inv (e : @Event World) (s : @Marquee World) : Inv s -> Inv (step e s).
Proof.
  intros H. destruct e; simpl.
  - unfold componentDidMount. destruct (marqueeOnStart _);
      [now apply startAnimation_Inv | exact H].
  - unfold componentWillReceiveProps.
    destruct (String.eqb _ _); [now apply with_props_Inv|].
    apply resetAnimation_in_props_Inv.
    destruct s; exact H.
  - unfold componentWillUnmount. apply clearTimeout_Inv.
    destruct (animating s); [now apply stop_Inv | exact H].
  - now apply startAnimation_Inv.
  - now apply stop_Inv.
  - now apply resetAnimation_Inv.
  - now apply setTimeout_Inv.
  - now apply clearTimeout_Inv.
  - exact H.
  - now apply fire_Inv.
  - now apply measured_Inv.
  - now apply animationFinished_Inv.
Qed.

Lemma construct_Inv (p : @Props World) (w : World) : Inv (construct p w).
Proof.
  split; [exact I|]. unfold animating_ok; simpl. split; [discriminate | congruence].
Qed.

Lemma run_Inv (es : list (@Event World)) (s : @Marquee World) : Inv s -> Inv (run es s).
Proof.
  revert s. induction es as [|e es IH]; intros s H; simpl; [exact H|].
  apply IH. now apply step_Inv.
Qed.

Lemma reachable_Inv (p : @Props World) (w : World) (es : list (@Event World)) :
  Inv (run es (construct p w)).
Proof. apply run_Inv, construct_Inv. Qed.

End Invariants.

(** ** Facts about binary64 arithmetic used below *)

Lemma SFcompare_refl (x : spec_float) :
  x <> S754_nan -> SFcompare x x = Some Eq.
Proof.
  destruct x as [sg|sg| |sg m e]; cbn; intros H;
    try congruence; try (now destruct sg).
  destruct sg; rewrite Z.compare_refl, Pos.compare_cont_refl; reflexivity.
Qed.

Lemma ltb_is_nan_r (a b : float) :
  (a <? b)%float = true -> is_nan b = false.
Proof.
  intros H. unfold is_nan. rewrite eqb_spec. rewrite ltb_spec in H.
  unfold SFeqb. rewrite SFcompare_refl; [reflexivity|].
  intros E. rewrite E in H. unfold SFltb in H.
  destruct (Prim2SF a); discriminate.
Qed.

(** A positive number divided by [+0] is [+Infinity], and stays so when
    multiplied by 1000. *)
Lemma div_zero_infinite (d : float) :
  (0 <? d)%float = true -> (d / 0 * 1000)%float = infinity.
Proof.
  intros H.
  assert (E : (d / 0)%float = infinity).
  { apply Prim2SF_inj. rewrite div_spec. rewrite ltb_spec in H.
    destruct (Prim2SF d) as [sg|sg| |sg m e]; cbn in H |- *;
      try discriminate; destruct sg; try discriminate; reflexivity. }
  rewrite E. reflexivity.
Qed.

(** [Math.max(100, m)] is [m] when [m] exceeds 100. *)
Lemma Math_max_100_above (m : number) :
  (100 <? m)%float = true -> Math_max 100%float m = m.
Proof.
  intros H. unfold Math_max.
  rewrite (ltb_is_nan_r _ _ H), H. reflexivity.
Qed.

(** [Math.max(100, m)] is 100 for every other [m] that is a number. *)
Lemma Math_max_100_floor (m : number) :
  (100 <? m)%float = false -> is_nan m = false ->
  Math_max 100%float m = 100%float.
Proof.
  intros H N. unfold Math_max. rewrite N, H.
  change (is_nan 100%float) with false.
  change (get_sign 100%float) with false.
  cbn. now destruct (m <? 100)%float.
Qed.

(** ** The measure-and-start cycle *)

Section Cycle.

Context {World : Type}.

Ltac unfold_cycle :=
  cbv [measure_then_start run fold_left step calculateMetrics measured
       calculateDistance Promise_all2 calculateMetrics_resume shouldAnimate
       ToNumber startAnimation start setTimeout clearTimeout
       host_clearTimeout host_setTimeout fire callback setState
       Animated_timing_start closure_of width_log or_default];
  cbn.

(** After a measurement whose distance is positive, an idle component that
    is started animates: the timeout fires, and the callback hands
    [Animated.timing] the distance just stored. *)
Lemma cycle_starts_animation (s : @Marquee World) (cw tw : number)
  (timeDelay : option number) :
  Inv s -> animating s = false -> (0 <? cw - tw)%float = true ->
  let s' := measure_then_start cw tw timeDelay s in
  animating s' = true /\
  distance s' = VNum (cw - tw)%float /\
  running s' =
    Some {| toValue := (- (cw - tw))%float;
            duration := ((cw - tw) / speed (props s) * 1000)%float;
            an_useNativeDriver := useNativeDriver (props s);
            an_loop := loop (props s);
            an_onMarqueeComplete := onMarqueeComplete (props s) |}.
Proof.
  intros [Hp _] Ha Hd.
  destruct s as [p an d cf av tm tos nh ms rn co w].
  unfold pending_ok in Hp. simpl in *. subst an.
  destruct tos as [|t [|t' l]]; [| |contradiction];
    destruct tm as [id|]; try discriminate; try (injection Hp as ->);
    unfold_cycle; rewrite ?Hd; cbn; rewrite ?Pos.eqb_refl; cbn;
    rewrite ?Pos.eqb_refl; cbn; rewrite ?Hd; cbn; repeat split.
Qed.

(** The callback decides on the fields as they are when it runs: the
    measurement it has just requested is still suspended when it returns. *)
Lemma callback_reads_current_fields (k : @StartCallback World)
  (s : @Marquee World) :
  animating (callback k s) = negb (contentFits s) || animating s /\
  measuring (callback k s) = S (measuring s) /\
  distance (callback k s) = distance s /\
  contentFits (callback k s) = contentFits s /\
  running (callback k s) =
    if contentFits s then running s
    else Some {| toValue := (- ToNumber (distance s))%float;
                 duration :=
                   (ToNumber (distance s) / cb_speed k * 1000)%float;
                 an_useNativeDriver := cb_useNativeDriver k;
                 an_loop := cb_loop k;
                 an_onMarqueeComplete := cb_onMarqueeComplete k |}.
Proof.
  destruct s as [p an d cf av tm tos nh ms rn co w].
  unfold callback. cbn. destruct cf; cbn; repeat split.
Qed.

(** ** Props are only replaced by [componentWillReceiveProps] *)

Lemma startAnimation_props (d : option number) (s : @Marquee World) :
  props (startAnimation d s) = props s.
Proof.
  unfold startAnimation, start. destruct (animating s); [reflexivity|].
  now destruct (setTimeout_frame (closure_of (props s)) d s) as (-> & _).
Qed.

Lemma resetAnimation_props (s : @Marquee World) :
  props (resetAnimation s) = props s.
Proof.
  unfold resetAnimation, resetAnimation_in, setState_then.
  rewrite startAnimation_props. reflexivity.
Qed.

Lemma callback_props (k : @StartCallback World) (s : @Marquee World) :
  props (callback k s) = props s.
Proof.
  unfold callback. cbn. now destruct (contentFits s).
Qed.

Lemma step_props (e : @Event World) (s : @Marquee World) :
  receives_props e = false -> props (step e s) = props s.
Proof.
  destruct e; cbn [step receives_props]; intros H;
    try discriminate; try reflexivity.
  - unfold componentDidMount. destruct (marqueeOnStart _);
      [apply startAnimation_props | reflexivity].
  - unfold componentWillUnmount.
    destruct (clearTimeout_frame (if animating s then stopAnimation s else s))
      as (-> & _).
    now destruct (animating s).
  - apply startAnimation_props.
  - apply resetAnimation_props.
  - now destruct (setTimeout_frame f ms s) as (-> & _).
  - now destruct (clearTimeout_frame s) as (-> & _).
  - unfold fire. destruct (find _ _); [|reflexivity].
    now rewrite callback_props.
  - unfold measured. destruct (measuring s); [reflexivity|].
    now destruct (calculateDistance container text).
  - unfold animationFinished. destruct (running s) as [a|]; [|reflexivity].
    unfold onAnimationEnd. destruct (an_loop a); [|reflexivity].
    now rewrite resetAnimation_props.
Qed.

Lemma run_props (es : list (@Event World)) (s : @Marquee World) :
  forallb (fun e => negb (receives_props e)) es = true ->
  props (run es s) = props s.
Proof.
  revert s. induction es as [|e es IH]; intros s H; [reflexivity|].
  cbn in H. apply andb_true_iff in H as [He Hes].
  apply negb_true_iff in He.
  change (run (e :: es) s) with (run es (step e s)).
  rewrite (IH _ Hes). now apply step_props.
Qed.

End Cycle.

(** ** Properties of the component *)

Local Open Scope float_scope.

(** C1: text wider than its container is expected to give the distance
    [contentWidth - containerWidth], positive, and to start the animation.
    [calculateDistance] returns [containerWidth - textWidth] instead, for
    all widths, and the content fits unless that is positive; so for
    container 100, text 250 and speed 100 the stored distance is -150, the
    content counts as fitting, and a full measure-and-start cycle leaves the
    component idle with the offset at 0 and no animation. *)
Theorem C1_overflowing_text_is_not_animated {World : Type} :
  (forall (s : @Marquee World) (containerWidth textWidth : number),
     let s' :=
       run [E_onContentSizeChange;
            E_measured (Fulfilled containerWidth) (Fulfilled textWidth)] s in
     distance s' = VNum (containerWidth - textWidth) /\
     contentFits s' = negb (0 <? containerWidth - textWidth)) /\
  (forall (text : string) (w : World),
     let s0 := construct (resolveDefaultProps (omitted text)) w in
     let s := measure_then_start 100 250 (Some 0%float) s0 in
     speed (props s) = 100%float /\
     distance s = VNum (-150)%float /\
     contentFits s = true /\
     animating s = false /\
     running s = None /\
     animatedValue s = 0%float).
Proof.
  split.
  - intros s cw tw. destruct s. cbv zeta. split; reflexivity.
  - intros text w. cbv zeta. repeat split.
Qed.

(** C2: the callback scheduled by [start] is expected to decide on the
    metrics of the measurement it has just requested.  [calculateMetrics()]
    is not awaited: when the callback returns the measurement is still
    suspended, and the decision and the values given to [Animated.timing]
    are those of the fields as they were before.  On a fresh component the
    callback so starts an animation to -0 lasting 0 ms, which keeps running
    after the measurement (container 100, text 100) reports that the
    content fits. *)
Theorem C2_callback_decides_before_measurement {World : Type} :
  (forall (k : @StartCallback World) (s : @Marquee World),
     measuring (callback k s) = S (measuring s) /\
     contentFits (callback k s) = contentFits s /\
     distance (callback k s) = distance s /\
     animating (callback k s) = negb (contentFits s) || animating s) /\
  (forall (text : string) (w : World),
     let s0 := construct (resolveDefaultProps (omitted text)) w in
     let s1 := run [E_startAnimation (Some 0%float); E_timeout 1] s0 in
     let s2 :=
       step (E_measured (Fulfilled 100%float) (Fulfilled 100%float)) s1 in
     measuring s1 = 1%nat /\
     animating s1 = true /\
     option_map (fun a => (toValue a, duration a)) (running s1)
       = Some ((-0)%float, 0%float) /\
     distance s2 = VNum 0%float /\
     contentFits s2 = true /\
     animating s2 = true /\
     running s2 = running s1).
Proof.
  split.
  - intros k s.
    destruct (callback_reads_current_fields k s) as (A & M & D & C & _).
    now repeat split.
  - intros text w. cbv zeta. repeat split.
Qed.

(** C3: a failed width measurement is expected to reject
    [calculateDistance], be caught and logged by [calculateMetrics], and
    leave the component idle.  The [catch] of [calculateDistance] returns
    the Error object, so the promise is always fulfilled: nothing is ever
    written with [console.warn], the Error object is stored as the distance
    and the content counts as fitting; and on a fresh component the
    callback has started its animation before the failure arrives. *)
Theorem C3_measurement_failure_is_not_rejected {World : Type} :
  (forall c t : Settled number, exists v, calculateDistance c t = Fulfilled v)
  /\
  (forall (c t : Settled number) (s : @Marquee World),
     filter is_warn (console (measured c t s))
       = filter is_warn (console s)) /\
  (forall (text reason : string) (w : World),
     let s0 := construct (resolveDefaultProps (omitted text)) w in
     let failed := E_measured (Rejected reason) (Fulfilled 100%float) in
     let s1 := run [E_onContentSizeChange; failed] s0 in
     let s2 := run [E_startAnimation (Some 0%float); E_timeout 1; failed] s0 in
     distance s1 = VError reason /\
     contentFits s1 = true /\
     console s1 = [console_log_Width 100%float] /\
     distance s2 = VError reason /\
     console s2 = [console_log_Width 100%float] /\
     animating s2 = true /\
     option_map (fun a => (toValue a, duration a)) (running s2)
       = Some ((-0)%float, 0%float)).
Proof.
  split; [|split].
  - intros [cw|e] [tw|e']; cbn; eauto.
  - intros c t s. unfold measured.
    destruct (measuring s); [reflexivity|].
    assert (W : forall p, filter is_warn (width_log p) = [])
      by (now intros [x|x]).
    destruct c as [cw|e], t as [tw|e']; cbn;
      rewrite ?filter_app; cbn; now rewrite ?app_nil_r.
  - intros text reason w. cbv zeta. repeat split.
Qed.

(** C4: a container at least as wide as its content is expected to give
    [contentFits = true] and no animation.  That holds when the widths are
    equal; with container 250 and text 100 the distance
    [containerWidth - textWidth] is 150, the content counts as not
    fitting, and the cycle starts an animation to -150 lasting 1500 ms. *)
Theorem C4_wide_container_is_animated {World : Type} (text : string)
  (w : World) :
  let s0 := construct (resolveDefaultProps (omitted text)) w in
  let s := measure_then_start 250 100 (Some 0%float) s0 in
  let s' := measure_then_start 100 100 (Some 0%float) s0 in
  distance s = VNum 150%float /\
  contentFits s = false /\
  animating s = true /\
  running s =
    Some {| toValue := (-150)%float; duration := 1500%float;
            an_useNativeDriver := true; an_loop := false;
            an_onMarqueeComplete := fun x => x |} /\
  contentFits s' = true /\
  animating s' = false /\
  running s' = None.
Proof. cbv zeta. repeat split. Qed.

(** C5: for every positive distance and positive speed, the duration given
    to [Animated.timing] is [distance / speed * 1000] ms.  In any reachable
    idle state, a measurement with positive distance [d] followed by
    [startAnimation] and the firing of its timeout starts an animation
    whose duration is [d / speed * 1000], towards [-d]. *)
Theorem C5_duration_law {World : Type} (p : @Props World) (w : World)
  (es : list (@Event World)) (containerWidth textWidth : number)
  (timeDelay : option number) :
  let s := run es (construct p w) in
  let d := containerWidth - textWidth in
  (0 <? d) = true ->
  (0 <? speed (props s)) = true ->
  animating s = false ->
  let s' := measure_then_start containerWidth textWidth timeDelay s in
  option_map duration (running s') = Some (d / speed (props s) * 1000) /\
  option_map toValue (running s') = Some (- d).
Proof.
  intros s d Hd _ Ha s'.
  destruct (cycle_starts_animation s containerWidth textWidth timeDelay
              (reachable_Inv p w es) Ha Hd) as (_ & _ & R).
  subst s'. rewrite R. split; reflexivity.
Qed.

Lemma C5_duration_law_witness :
  let s := construct (resolveDefaultProps (omitted "marquee")) 0%nat in
  let s' := measure_then_start 250 100 (Some 0) s in
  option_map duration (running s') = Some 1500 /\
  option_map toValue (running s') = Some (-150).
Proof.
  exact (C5_duration_law (resolveDefaultProps (omitted "marquee")) 0%nat []
           250 100 (Some 0) eq_refl eq_refl eq_refl).
Defined.

(** C6: [resetAnimation] sets the offset to 0, makes the component idle and
    schedules the start callback after [Math.max(100, marqueeResetDelay)]
    ms: the delay is [marqueeResetDelay] when that exceeds 100 and 100 for
    every other number, 0 included.  When [loop] was true at [start], the
    completion of the animation with [finished = true] is this reset. *)
Theorem C6_reset_restarts_after_floor {World : Type} (p : @Props World)
  (w : World) (es : list (@Event World)) :
  let s := run es (construct p w) in
  let m := marqueeResetDelay (props s) in
  let s' := resetAnimation s in
  animatedValue s' = 0 /\
  animating s' = false /\
  running s' = None /\
  timer s' = Some (next_handle s) /\
  timeouts s' =
    [{| handle := next_handle s; fn := closure_of (props s);
        time := Math_max 100 m |}] /\
  ((100 <? m) = true -> Math_max 100 m = m) /\
  ((100 <? m) = false -> is_nan m = false -> Math_max 100 m = 100) /\
  Math_max 100 0 = 100 /\
  (forall a, running s = Some a -> an_loop a = true ->
     animationFinished s = s').
Proof.
  intros s m s'.
  assert (Hs : Inv (stop s)) by (apply stop_Inv, reachable_Inv).
  assert (E : s' = setTimeout (closure_of (props s)) (Some (Math_max 100 m))
                     (stop s)) by reflexivity.
  destruct (setTimeout_timeouts (closure_of (props s))
              (Some (Math_max 100 m)) (stop s) (proj1 Hs)) as [T1 T2].
  destruct (setTimeout_frame (closure_of (props s))
              (Some (Math_max 100 m)) (stop s))
    as (_ & A & _ & _ & V & _ & R & _).
  rewrite E, A, V, R, T1, T2.
  repeat split.
  - apply Math_max_100_above.
  - apply Math_max_100_floor.
  - intros a Ha La. unfold animationFinished, onAnimationEnd.
    rewrite Ha, La. rewrite <- E. subst s'. destruct s; reflexivity.
Qed.

(** C7: [startAnimation] called while [state.animating] is true returns at
    once: the whole state, with the running animation and its duration, is
    unchanged. *)
Theorem C7_start_while_animating_is_noop {World : Type}
  (s : @Marquee World) (timeDelay : option number) :
  animating s = true ->
  startAnimation timeDelay s = s /\
  step (E_startAnimation timeDelay) s = s.
Proof.
  intros H. cbn [step]. unfold startAnimation. rewrite H. now split.
Qed.

Lemma C7_start_while_animating_is_noop_witness :
  let s0 := construct (resolveDefaultProps (omitted "marquee")) 0%nat in
  let s := measure_then_start 250 100 (Some 0) s0 in
  startAnimation (Some 0) s = s /\
  step (E_startAnimation (Some 0)) s = s.
Proof.
  exact (C7_start_while_animating_is_noop
           (measure_then_start 250 100 (Some 0)
              (construct (resolveDefaultProps (omitted "marquee")) 0%nat))
           (Some 0) eq_refl).
Defined.

(** C8: in every state reached from construction by any sequence of
    events, the raw [setTimeout] and [clearTimeout] methods among them, at
    most one timeout is pending; [setTimeout] leaves exactly the new one
    pending; and [clearTimeout] with nothing pending only resets
    [this.timer], changing nothing at all when that is already empty. *)
Theorem C8_single_pending_timeout {World : Type} (p : @Props World)
  (w : World) (es : list (@Event World)) :
  let s := run es (construct p w) in
  (List.length (timeouts s) <= 1)%nat /\
  (forall f ms,
     timeouts (setTimeout f ms s) =
       [{| handle := next_handle s; fn := f; time := or_default ms 0 |}] /\
     timer (setTimeout f ms s) = Some (next_handle s)) /\
  (timeouts s = [] -> clearTimeout s = with_timer None s) /\
  (timer s = None -> clearTimeout s = s).
Proof.
  intros s. destruct (reachable_Inv p w es) as [Hp _]. fold s in Hp.
  repeat split.
  - unfold pending_ok in Hp.
    destruct (timeouts s) as [|t [|t' l]]; cbn; [lia | lia | contradiction].
  - now apply setTimeout_timeouts.
  - now apply setTimeout_timeouts.
  - intros E. unfold clearTimeout, host_clearTimeout.
    destruct s as [p0 an d cf av tm tos nh ms rn co w0]. cbn in *. subst tos.
    now destruct tm.
  - intros E. unfold clearTimeout. now rewrite E.
Qed.

(** C9, as stated: a non-positive speed is guarded, so that the duration is
    never infinite.  It is not: with [speed = 0], container 250 and text 100
    the cycle starts an animation whose duration is [+Infinity]. *)
Lemma C9_zero_speed_gives_infinite_duration :
  let a :=
    {| given_speed := Some 0; given_loop := None;
       given_marqueeOnStart := None; given_marqueeDelay := None;
       given_marqueeResetDelay := None; given_onMarqueeComplete := None;
       given_useNativeDriver := None; given_children := "marquee" |} in
  let s := construct (resolveDefaultProps a) 0%nat in
  let s' := measure_then_start 250 100 (Some 0) s in
  (speed (props s) <=? 0) = true /\
  distance s' = VNum 150 /\
  animating s' = true /\
  option_map duration (running s') = Some infinity /\
  option_map (fun a => is_infinity (duration a)) (running s') = Some true.
Proof. cbv zeta. repeat split. Qed.

(** C9, amended: a non-positive speed is not guarded.  The duration given
    to [Animated.timing] is [distance / speed * 1000] in binary64
    arithmetic for such a speed as for any other, and for [speed = 0] and a
    positive distance it is [+Infinity]. *)
Theorem C9_duration_is_not_guarded {World : Type} (p : @Props World)
  (w : World) (es : list (@Event World)) (containerWidth textWidth : number)
  (timeDelay : option number) :
  let s := run es (construct p w) in
  let d := containerWidth - textWidth in
  (speed (props s) <=? 0) = true ->
  (0 <? d) = true ->
  animating s = false ->
  let s' := measure_then_start containerWidth textWidth timeDelay s in
  animating s' = true /\
  option_map duration (running s') = Some (d / speed (props s) * 1000) /\
  (speed (props s) = 0 ->
   option_map duration (running s') = Some infinity).
Proof.
  intros s d _ Hd Ha s'.
  destruct (cycle_starts_animation s containerWidth textWidth timeDelay
              (reachable_Inv p w es) Ha Hd) as (A & _ & R).
  subst s'. rewrite R. repeat split; [exact A|].
  intros Z. rewrite Z. cbn [option_map duration]. f_equal.
  exact (div_zero_infinite d Hd).
Qed.

Lemma C9_duration_is_not_guarded_witness :
  let a :=
    {| given_speed := Some 0; given_loop := None;
       given_marqueeOnStart := None; given_marqueeDelay := None;
       given_marqueeResetDelay := None; given_onMarqueeComplete := None;
       given_useNativeDriver := None; given_children := "marquee" |} in
  let s := construct (resolveDefaultProps a) 0%nat in
  let s' := measure_then_start 250 100 (Some 0) s in
  animating s' = true /\
  option_map duration (running s') = Some (150 / 0 * 1000) /\
  (speed (props s) = 0 -> option_map duration (running s') = Some infinity).
Proof.
  exact (C9_duration_is_not_guarded
           (resolveDefaultProps
              {| given_speed := Some 0; given_loop := None;
                 given_marqueeOnStart := None; given_marqueeDelay := None;
                 given_marqueeResetDelay := None;
                 given_onMarqueeComplete := None;
                 given_useNativeDriver := None;
                 given_children := "marquee" |})
           0%nat [] 250 100 (Some 0) eq_refl eq_refl eq_refl).
Defined.

(** C10: an element created with every optional prop omitted has speed
    100, loop false, marqueeOnStart false, marqueeDelay 0, marqueeResetDelay
    0, useNativeDriver true and an [onMarqueeComplete] that changes nothing;
    each omitted prop takes its default whatever the others are; and the
    instance keeps these props through every event that is not
    [componentWillReceiveProps]. *)
Theorem C10_default_props {World : Type} (text : string) (w : World) :
  let p := resolveDefaultProps (omitted text) in
  (speed p = 100 /\ loop p = false /\ marqueeOnStart p = false /\
   marqueeDelay p = 0 /\ marqueeResetDelay p = 0 /\
   useNativeDriver p = true /\ (forall x : World, onMarqueeComplete p x = x))
  /\
  (forall a : @Attributes World,
     (given_speed a = None -> speed (resolveDefaultProps a) = 100) /\
     (given_loop a = None -> loop (resolveDefaultProps a) = false) /\
     (given_marqueeOnStart a = None ->
      marqueeOnStart (resolveDefaultProps a) = false) /\
     (given_marqueeDelay a = None ->
      marqueeDelay (resolveDefaultProps a) = 0) /\
     (given_marqueeResetDelay a = None ->
      marqueeResetDelay (resolveDefaultProps a) = 0) /\
     (given_useNativeDriver a = None ->
      useNativeDriver (resolveDefaultProps a) = true) /\
     (given_onMarqueeComplete a = None ->
      forall x : World, onMarqueeComplete (resolveDefaultProps a) x = x)) /\
  (forall es : list (@Event World),
     forallb (fun e => negb (receives_props e)) es = true ->
     props (run es (construct p w)) = p).
Proof.
  intros p. split; [|split].
  - repeat split.
  - intros a. repeat split; intros E; cbn; rewrite E; reflexivity.
  - intros es H. now rewrite (run_props es (construct p w) H).
Qed.

(** ** Further invariants: the offset at rest and the metrics *)

Section MoreInvariants.

Context {World : Type}.

Ltac break_match :=
  match goal with
  | |- context [match ?x with _ => _ end] => destruct x eqn:?
  | |- context [if ?x then _ else _] => destruct x eqn:?
  end.

Ltac unfold_methods :=
  cbv [step componentDidMount componentWillReceiveProps componentWillUnmount
       startAnimation start stopAnimation stop resetAnimation
       resetAnimation_in setState_then setState setValue setTimeout
       clearTimeout host_clearTimeout host_setTimeout calculateMetrics
       measured calculateMetrics_resume fire callback Animated_timing_start
       animationFinished onAnimationEnd invalidateMetrics closure_of
       or_default].

(** What [startAnimation] leaves alone. *)
Lemma startAnimation_frame (d : option number) (s : @Marquee World) :
  animating (startAnimation d s) = animating s /\
  distance (startAnimation d s) = distance s /\
  contentFits (startAnimation d s) = contentFits s /\
  animatedValue (startAnimation d s) = animatedValue s /\
  measuring (startAnimation d s) = measuring s /\
  running (startAnimation d s) = running s /\
  console (startAnimation d s) = console s /\
  world (startAnimation d s) = world s.
Proof.
  unfold startAnimation, start. destruct (animating s) eqn:A.
  - now rewrite A.
  - destruct (setTimeout_frame (closure_of (props s)) d s)
      as (_ & -> & -> & -> & -> & -> & -> & -> & ->).
    now rewrite A.
Qed.


Lemma step_metrics_ok (e : @Event World) (s : @Marquee World) :
  metrics_ok s -> metrics_ok (step e s).
Proof.
  unfold metrics_ok. destruct s as [p an d cf av tm tos nh ms rn co w].
  destruct e; unfold_methods; cbv [calculateDistance Promise_all2]; cbn;
    intros H; repeat (break_match; cbn in *); subst; auto;
    try discriminate.
  destruct container, text;
    match goal with
    | E : _ = Fulfilled _ |- _ => cbn in E; injection E as <-
    end;
    right; (split; [discriminate | reflexivity]).
Qed.


Lemma reachable_metrics_ok (p : @Props World) (w : World)
  (es : list (@Event World)) :
  metrics_ok (run es (construct p w)).
Proof.
  assert (G : forall s, metrics_ok s -> metrics_ok (run es s)).
  { induction es as [|e es IH]; intros s H; [exact H|].
    apply IH, step_metrics_ok, H. }
  apply G. left. now split.
Qed.

End MoreInvariants.

(** ** Lifecycle properties beyond the specification's list *)




(** X3: in every state reached from construction, the metrics are either
    invalidated ([distance] null, [contentFits] false) or consistent:
    [contentFits] is the negation of [shouldAnimate(distance)].  So a
    component whose content is recorded as fitting has been measured. *)
Theorem metrics_invalidated_or_consistent {World : Type} (p : @Props World)
  (w : World) (es : list (@Event World)) :
  let s := run es (construct p w) in
  ((distance s = VNull /\ contentFits s = false) \/
   (distance s <> VNull /\
    contentFits s = negb (shouldAnimate (distance s)))) /\
  (contentFits s = true -> distance s <> VNull).
Proof.
  intros s. pose proof (reachable_metrics_ok p w es) as M. fold s in M.
  split; [exact M|].
  intros F. destruct M as [[_ C]|[N _]]; [congruence | exact N].
Qed.




(** X6: [componentWillReceiveProps] with the same text only installs the
    new props: a running animation and a pending timeout go on with what
    they captured.  With a different text it invalidates the metrics, puts
    the component idle at offset 0, and leaves one timeout pending, whose
    delay is [Math.max(100, marqueeResetDelay)] of the old props and whose
    callback captures the new ones. *)
Theorem content_change_resets {World : Type} (p : @Props World) (w : World)
  (es : list (@Event World)) (nextProps : @Props World) :
  let s := run es (construct p w) in
  let s' := componentWillReceiveProps nextProps s in
  (String.eqb (children (props s)) (children nextProps) = true ->
   s' = with_props nextProps s) /\
  (String.eqb (children (props s)) (children nextProps) = false ->
   props s' = nextProps /\
   distance s' = VNull /\
   contentFits s' = false /\
   animating s' = false /\
   running s' = None /\
   animatedValue s' = 0 /\
   timer s' = Some (next_handle s) /\
   timeouts s' =
     [{| handle := next_handle s; fn := closure_of nextProps;
         time := Math_max 100 (marqueeResetDelay (props s)) |}]).
Proof.
  intros s s'. subst s'. unfold componentWillReceiveProps.
  destruct (reachable_Inv p w es) as [Hp _]. fold s in Hp.
  split; intros E; rewrite E; [reflexivity|].
  unfold pending_ok in Hp.
  destruct s as [p0 an d cf av tm tos nh ms rn co w0]. cbn in Hp |- *.
  destruct tos as [|t [|t' l]]; [| |contradiction];
    destruct tm as [id|]; try discriminate; try (injection Hp as ->);
    cbv [resetAnimation_in setState_then setState setValue
         invalidateMetrics startAnimation start setTimeout clearTimeout
         host_clearTimeout host_setTimeout or_default];
    cbn; rewrite ?Pos.eqb_refl; cbn; repeat split.
Qed.

(** X7: a measurement, from the content-size notification to the resumed
    [calculateMetrics], changes only the metrics and the console: it never
    starts, stops or reschedules anything, whatever the widths are and
    whether the measurement fails. *)
Theorem measurement_changes_only_metrics {World : Type}
  (s : @Marquee World) (container text : Settled number) :
  let s' := run [E_onContentSizeChange; E_measured container text] s in
  props s' = props s /\
  animating s' = animating s /\
  animatedValue s' = animatedValue s /\
  running s' = running s /\
  timer s' = timer s /\
  timeouts s' = timeouts s /\
  measuring s' = measuring s /\
  world s' = world s.
Proof.
  destruct s as [p an d cf av tm tos nh ms rn co w].
  destruct container, text; cbv zeta; repeat split.
Qed.

Lemma setTimeout_next_handle {World : Type} (f : @StartCallback World)
  (ms : option number) (s : @Marquee World) :
  next_handle (setTimeout f ms s) = Pos.succ (next_handle s).
Proof.
  unfold setTimeout, host_setTimeout. cbn.
  now destruct (clearTimeout_frame s) as (_ & _ & _ & _ & _ & -> & _).
Qed.

Lemma startAnimation_idle {World : Type} (d : option number)
  (s : @Marquee World) :
  animating s = false ->
  startAnimation d s = setTimeout (closure_of (props s)) d s.
Proof. intros A. unfold startAnimation, start. now rewrite A. Qed.

(** X8: while the component is idle, a second [startAnimation] replaces
    the first: exactly one timeout is pending afterwards, with the second
    delay (0 when omitted), so only one callback will run. *)
Theorem restart_replaces_pending_start {World : Type} (p : @Props World)
  (w : World) (es : list (@Event World)) (d1 d2 : option number) :
  let s := run es (construct p w) in
  animating s = false ->
  let s' := startAnimation d2 (startAnimation d1 s) in
  timer s' = Some (Pos.succ (next_handle s)) /\
  timeouts s' =
    [{| handle := Pos.succ (next_handle s); fn := closure_of (props s);
        time := or_default d2 0 |}].
Proof.
  intros s A s'. subst s'.
  assert (I1 : Inv (startAnimation d1 s))
    by (apply startAnimation_Inv, reachable_Inv).
  destruct (startAnimation_frame d1 s) as (A1 & _).
  rewrite A in A1.
  rewrite (startAnimation_idle d2 (startAnimation d1 s) A1).
  destruct (setTimeout_timeouts (closure_of (props (startAnimation d1 s))) d2
              (startAnimation d1 s) (proj1 I1)) as [-> ->].
  rewrite startAnimation_props.
  rewrite (startAnimation_idle d1 s A), setTimeout_next_handle.
  now split.
Qed.

Lemma restart_replaces_pending_start_witness :
  let p := resolveDefaultProps (omitted "marquee") in
  let s := construct p 0%nat in
  let s' := startAnimation None (startAnimation (Some 500) s) in
  timer s' = Some 2%positive /\
  timeouts s' = [{| handle := 2; fn := closure_of p; time := 0 |}].
Proof.
  exact (restart_replaces_pending_start
           (resolveDefaultProps (omitted "marquee")) 0%nat []
           (Some 500) None eq_refl).
Defined.






Lemma is_nan_Prim2SF (x : float) : is_nan x = true -> Prim2SF x = S754_nan.
Proof.
  unfold is_nan. rewrite eqb_spec. unfold SFeqb. intros H.
  destruct (Prim2SF x) eqn:E; try reflexivity;
    rewrite SFcompare_refl in H by discriminate; discriminate.
Qed.

Lemma sub_nan_not_positive (a b : float) :
  is_nan a || is_nan b = true -> (0 <? a - b) = false.
Proof.
  intros H. rewrite ltb_spec, sub_spec.
  apply orb_true_iff in H as [H|H]; apply is_nan_Prim2SF in H; rewrite H.
  - reflexivity.
  - destruct (Prim2SF a); reflexivity.
Qed.

(** X12: when a measured width is NaN, the content is recorded as fitting
    and a start callback that runs afterwards starts no animation. *)
Theorem nan_width_counts_as_fitting {World : Type} (s : @Marquee World)
  (containerWidth textWidth : number) (k : @StartCallback World) :
  is_nan containerWidth || is_nan textWidth = true ->
  let s' :=
    run [E_onContentSizeChange;
         E_measured (Fulfilled containerWidth) (Fulfilled textWidth)] s in
  contentFits s' = true /\
  running (callback k s') = running s /\
  animating (callback k s') = animating s.
Proof.
  intros H. destruct s as [p an d cf av tm tos nh ms rn co w].
  cbv [run fold_left step calculateMetrics measured calculateDistance
       Promise_all2 calculateMetrics_resume shouldAnimate ToNumber callback
       width_log].
  cbn. rewrite (sub_nan_not_positive _ _ H). cbn. repeat split.
Qed.

Lemma nan_width_counts_as_fitting_witness :
  let p := resolveDefaultProps (omitted "marquee") in
  let s := construct p 0%nat in
  let s' :=
    run [E_onContentSizeChange; E_measured (Fulfilled nan) (Fulfilled 100)]
      s in
  contentFits s' = true /\
  running (callback (closure_of p) s') = running s /\
  animating (callback (closure_of p) s') = animating s.
Proof.
  exact (nan_width_counts_as_fitting
           (construct (resolveDefaultProps (omitted "marquee")) 0%nat)
           nan 100
           (closure_of (resolveDefaultProps (omitted "marquee")))
           eq_refl).
Defined.
